(** * The Windows registration shim of flutter_mcp_server

    [windows/flutter_mcp_server_plugin_c_api.cpp] defines one function,

<<
    void FlutterMcpServerPluginCApiRegisterWithRegistrar(
        FlutterDesktopPluginRegistrarRef registrar) {
      flutter_mcp_server::FlutterMcpServerPlugin::RegisterWithRegistrar(
          flutter::PluginRegistrarManager::GetInstance()
              ->GetRegistrar<flutter::PluginRegistrarWindows>(registrar));
    }
>>

    The function has no data of its own: everything it does, it does by
    calling three collaborators. It is embedded as a program over the
    effects a C++ function body can have, and run against a host that
    answers them. The theorems about the function hold for every host;
    a reference host, written from the specification, is used where a
    statement is about the collaborators themselves and to evaluate the
    theorems on concrete inputs. *)

From Stdlib Require Import NArith ZArith List Lia.
From stdpp Require Import base decidable option list gmap.

Import ListNotations.
Local Open Scope N_scope.

(** ** Pointers *)

Module Ptr.

(** An address of the process. *)
Definition addr : Type := N.

(** The null pointer. *)
Definition null : addr := 0.

(** [FlutterDesktopPluginRegistrarRef]: a pointer to a struct the engine
    never defines for its clients. *)
Definition FlutterDesktopPluginRegistrarRef : Type := addr.

(** [flutter::PluginRegistrarManager*]. *)
Variant PluginRegistrarManagerPtr : Type :=
| manager_at (a : addr).

(** [flutter::PluginRegistrarWindows*], the typed registrar. *)
Variant PluginRegistrarWindowsPtr : Type :=
| registrar_at (a : addr).

#[global] Instance manager_eq_dec : EqDecision PluginRegistrarManagerPtr.
Proof. solve_decision. Defined.

#[global] Instance registrar_eq_dec : EqDecision PluginRegistrarWindowsPtr.
Proof. solve_decision. Defined.

End Ptr.
Export Ptr.

(** ** Effects of a function body *)

Module Effects.

(** What a C++ exception carries, as far as this development looks. *)
Variant Exn : Type :=
| HostFault
| Other (code : N).

#[global] Instance exn_eq_dec : EqDecision Exn.
Proof. solve_decision. Defined.

(** The effects: the three calls the shim's source names, and the
    primitive effects a function body could have of its own (a heap
    allocation, a write through a pointer, a deallocation, a raised
    exception). *)
Variant Effect : Type :=
| GetInstance
| GetRegistrar (this : PluginRegistrarManagerPtr)
               (registrar_ref : FlutterDesktopPluginRegistrarRef)
| RegisterWithRegistrar (registrar : PluginRegistrarWindowsPtr)
| New (v : Z)
| Store (p : addr) (v : Z)
| Delete (p : addr)
| Throw (e : Exn).

#[global] Instance effect_eq_dec : EqDecision Effect.
Proof. solve_decision. Defined.

(** What each effect hands back to the code that performs it. *)
Definition reply (e : Effect) : Type :=
  match e with
  | GetInstance => PluginRegistrarManagerPtr
  | GetRegistrar _ _ => PluginRegistrarWindowsPtr
  | RegisterWithRegistrar _ => unit
  | New _ => addr
  | Store _ _ => unit
  | Delete _ => unit
  | Throw _ => Empty_set
  end.

(** Calls into a collaborator, as opposed to the primitive effects. *)
Definition is_call (e : Effect) : bool :=
  match e with
  | GetInstance | GetRegistrar _ _ | RegisterWithRegistrar _ => true
  | _ => false
  end.

(** The effects that create, write or destroy memory, and the one that
    raises. *)
Definition touches_memory (e : Effect) : bool :=
  match e with
  | New _ | Store _ _ | Delete _ => true
  | _ => false
  end.

Definition is_throw (e : Effect) : bool :=
  match e with
  | Throw _ => true
  | _ => false
  end.

End Effects.
Export Effects.

(** ** Programs *)

Module Program.

(** A program returns, or performs an effect and goes on with the reply. *)
Inductive Prog (A : Type) : Type :=
| Ret (a : A)
| Do (e : Effect) (k : reply e -> Prog A).

Arguments Ret {A} a.
Arguments Do {A} e k.

Fixpoint bind {A B : Type} (p : Prog A) (f : A -> Prog B) : Prog B :=
  match p with
  | Ret a => f a
  | Do e k => Do e (fun x => bind (k x) f)
  end.

#[global] Instance prog_ret : MRet Prog := @Ret.
#[global] Instance prog_bind : MBind Prog := fun A B f p => bind p f.

(** Perform one effect and return its reply. *)
Definition call (e : Effect) : Prog (reply e) := Do e Ret.

(** How a call ends: it returns a value, leaves by an exception, or
    never comes back. The first two carry the state they leave. *)
Variant Outcome (W A : Type) : Type :=
| Returns (a : A) (w : W)
| Throws (e : Exn) (w : W)
| Blocks.

Arguments Returns {W A} a w.
Arguments Throws {W A} e w.
Arguments Blocks {W A}.

(** A host answers every effect from a state of its own. *)
Definition Host (W : Type) : Type :=
  forall e : Effect, W -> Outcome W (reply e).

(** Running a program: the effects performed, in order, and how the
    run ends. There is no handler in the language, so an exception
    ends the run where it is raised. *)
Fixpoint run {W A : Type} (h : Host W) (p : Prog A) (w : W)
  : list Effect * Outcome W A :=
  match p with
  | Ret a => ([], Returns a w)
  | Do e k =>
      match h e w with
      | Returns x w' => let '(t, o) := run h (k x) w' in (e :: t, o)
      | Throws ex w' => ([e], Throws ex w')
      | Blocks => ([e], Blocks)
      end
  end.

Definition performed {W A : Type} (h : Host W) (p : Prog A) (w : W)
  : list Effect := fst (run h p w).

Definition outcome {W A : Type} (h : Host W) (p : Prog A) (w : W)
  : Outcome W A := snd (run h p w).

(** The state a finished run leaves. *)
Definition final {W A : Type} (o : Outcome W A) : option W :=
  match o with
  | Returns _ w | Throws _ w => Some w
  | Blocks => None
  end.

End Program.
Export Program.

(** ** The shim *)

(** [FlutterMcpServerPluginCApiRegisterWithRegistrar]. The argument of
    [RegisterWithRegistrar] is evaluated before the call, and the object
    expression [GetInstance()] before the member call on it. *)
Definition FlutterMcpServerPluginCApiRegisterWithRegistrar
    (registrar : FlutterDesktopPluginRegistrarRef) : Prog unit :=
  this ← call GetInstance;
  typed ← call (GetRegistrar this registrar);
  call (RegisterWithRegistrar typed).

(** The engine calling the entry point once for each reference of a list,
    one call after the other; a call that does not return ends the
    sequence. *)
Fixpoint run_calls {W : Type} (h : Host W)
    (refs : list FlutterDesktopPluginRegistrarRef) (w : W)
  : list Effect * Outcome W unit :=
  match refs with
  | [] => ([], Returns tt w)
  | registrar :: rest =>
      match run h (FlutterMcpServerPluginCApiRegisterWithRegistrar registrar) w with
      | (t, Returns _ w') => let '(t', o) := run_calls h rest w' in (t ++ t', o)
      | (t, o) => (t, o)
      end
  end.

(** The typed registrars the registrations in a list of effects were
    given. *)
Definition registrations (t : list Effect) : list PluginRegistrarWindowsPtr :=
  omap (fun e => match e with
                 | RegisterWithRegistrar r => Some r
                 | _ => None
                 end) t.

(** The manager instances the lookups in a list of effects were made on,
    and the references they were given. *)
Definition lookups (t : list Effect)
  : list (PluginRegistrarManagerPtr * FlutterDesktopPluginRegistrarRef) :=
  omap (fun e => match e with
                 | GetRegistrar m r => Some (m, r)
                 | _ => None
                 end) t.

(** ** A reference host *)

Module Reference.

(** Modelled from the spec: the collaborators of the shim, which are not
    part of the source file. The state holds the singleton slot of the
    registrar manager ("look up (or lazily create) the singleton
    registrar-manager instance"), the process-wide registry the manager
    looks references up in ("a lookup operation that maps an opaque
    reference to a typed registrar object"), which the engine fills,
    the next free address, the typed registrars a plugin
    instance was attached to ("the plugin instance is constructed and
    attached to the registrar's internal registry"), latest first, and
    the memory of the process, which holds what the engine keeps behind
    its handles. *)
Record World : Type := mkWorld {
  instance : option PluginRegistrarManagerPtr;
  registry : gmap N PluginRegistrarWindowsPtr;
  brk : addr;
  attached : list PluginRegistrarWindowsPtr;
  heap : gmap N Z
}.

(** Modelled from the spec: [PluginRegistrarManager::GetInstance], which
    looks the singleton up and creates it when there is none yet. *)
Definition get_instance (w : World) : Outcome World PluginRegistrarManagerPtr :=
  match instance w with
  | Some m => Returns m w
  | None =>
      let m := manager_at (brk w) in
      Returns m (mkWorld (Some m) (registry w) (brk w + 1) (attached w) (heap w))
  end.

(** Modelled from the spec: [PluginRegistrarManager::GetRegistrar], the
    lookup of "the typed registrar object corresponding to the opaque
    reference". The lookup changes nothing. A null reference, a reference
    the registry has no typed registrar for, and a receiver that is not
    the singleton, are faults of the host ("any malfunction (null
    registrar, mismatched ABI version) is undefined behavior or a
    host-engine-level fault"). *)
Definition get_registrar (this : PluginRegistrarManagerPtr)
    (registrar_ref : FlutterDesktopPluginRegistrarRef) (w : World)
  : Outcome World PluginRegistrarWindowsPtr :=
  if decide (instance w = Some this) then
    if decide (registrar_ref = null) then Throws HostFault w
    else
      match registry w !! registrar_ref with
      | Some typed => Returns typed w
      | None => Throws HostFault w
      end
  else Throws HostFault w.

(** Modelled from the spec: [FlutterMcpServerPlugin::RegisterWithRegistrar],
    which attaches a plugin instance to the registrar it is given. *)
Definition register_with_registrar (registrar : PluginRegistrarWindowsPtr)
    (w : World) : Outcome World unit :=
  Returns tt
    (mkWorld (instance w) (registry w) (brk w) (registrar :: attached w) (heap w)).

(** The primitive effects, on the memory of the process. *)
Definition new (v : Z) (w : World) : Outcome World addr :=
  Returns (brk w)
    (mkWorld (instance w) (registry w) (brk w + 1) (attached w)
             (<[brk w := v]> (heap w))).

Definition store (p : addr) (v : Z) (w : World) : Outcome World unit :=
  match heap w !! p with
  | Some _ =>
      Returns tt
        (mkWorld (instance w) (registry w) (brk w) (attached w)
                 (<[p := v]> (heap w)))
  | None => Throws HostFault w
  end.

Definition delete_ (p : addr) (w : World) : Outcome World unit :=
  Returns tt
    (mkWorld (instance w) (registry w) (brk w) (attached w) (delete p (heap w))).

Definition host : Host World :=
  fun e =>
    match e as e0 return World -> Outcome World (reply e0) with
    | GetInstance => get_instance
    | GetRegistrar this registrar_ref => get_registrar this registrar_ref
    | RegisterWithRegistrar registrar => register_with_registrar registrar
    | New v => new v
    | Store p v => store p v
    | Delete p => delete_ p
    | Throw ex => fun w => Throws ex w
    end.


(** The registry of the examples: the engine has a typed registrar for
    the handles [7] and [9]. *)
Definition engine_registry : gmap N PluginRegistrarWindowsPtr :=
  <[ 9 := registrar_at 51 ]> {[ 7 := registrar_at 50 ]}.

(** A process at start-up: no manager yet, nothing attached, and the
    engine's registrar object, one word, behind the handle [7]. *)
Definition startup : World :=
  mkWorld None engine_registry 100 [] {[ 7 := 42%Z ]}.

(** The same process once [GetInstance] has made the manager, at [100]. *)
Definition started : World :=
  mkWorld (Some (manager_at 100)) engine_registry 101 [] {[ 7 := 42%Z ]}.


End Reference.

(** ** Running the shim by hand *)

Example startup_call :
  run Reference.host (FlutterMcpServerPluginCApiRegisterWithRegistrar 7)
      Reference.startup
  = ([GetInstance; GetRegistrar (manager_at 100) 7;
      RegisterWithRegistrar (registrar_at 50)],
     Returns tt
       (Reference.mkWorld (Some (manager_at 100)) Reference.engine_registry
                          101 [registrar_at 50] {[ 7 := 42%Z ]})).
Proof. reflexivity. Qed.

Example startup_null_call :
  run Reference.host (FlutterMcpServerPluginCApiRegisterWithRegistrar null)
      Reference.startup
  = ([GetInstance; GetRegistrar (manager_at 100) null],
     Throws HostFault Reference.started).
Proof. reflexivity. Qed.

(** The predicates used below tell programs apart: a body that allocates
    shows an effect on memory, and a body that tested its argument first
    would make no lookup for the null reference. *)
Example allocation_is_seen :
  forallb (fun e => negb (touches_memory e))
          (performed Reference.host (call (New 0)) Reference.startup) = false.
Proof. reflexivity. Qed.

Example guard_would_be_seen :
  lookups
    (performed Reference.host
       (if decide (null = null) then Ret tt
        else FlutterMcpServerPluginCApiRegisterWithRegistrar null)
       Reference.startup) = [].
Proof. reflexivity. Qed.

(** ** The shim against any host *)

Section AnyHost.

Context {W : Type} (h : Host W).

Local Abbreviation shim := FlutterMcpServerPluginCApiRegisterWithRegistrar.

(** One call of the shim, spelled out on what the host answers. *)
Lemma run_shim (registrar : FlutterDesktopPluginRegistrarRef) (w : W) :
  run h (shim registrar) w =
  match h GetInstance w with
  | Returns this w1 =>
      match h (GetRegistrar this registrar) w1 with
      | Returns typed w2 =>
          ([GetInstance; GetRegistrar this registrar;
            RegisterWithRegistrar typed],
           h (RegisterWithRegistrar typed) w2)
      | Throws ex w2 => ([GetInstance; GetRegistrar this registrar], Throws ex w2)
      | Blocks => ([GetInstance; GetRegistrar this registrar], Blocks)
      end
  | Throws ex w1 => ([GetInstance], Throws ex w1)
  | Blocks => ([GetInstance], Blocks)
  end.
Proof.
  cbn.
  destruct (h GetInstance w) as [this w1 | ex w1 |]; [| reflexivity ..].
  cbn.
  destruct (h (GetRegistrar this registrar) w1) as [typed w2 | ex w2 |];
    [| reflexivity ..].
  cbn.
  destruct (h (RegisterWithRegistrar typed) w2) as [[] w3 | ex w3 |];
    reflexivity.
Qed.

(** What holds before a run, and is kept by the host at every effect
    the run performs, holds in the state the run leaves. *)
Lemma run_invariant {A : Type} (P : W -> Prop) (p : Prog A) :
  forall w,
    (forall e w0 w1,
        In e (performed h p w) -> P w0 -> final (h e w0) = Some w1 -> P w1) ->
    P w ->
    forall w', final (outcome h p w) = Some w' -> P w'.
Proof.
  unfold performed, outcome.
  induction p as [a | e k IH]; intros w Hkeep Hw w' Hfin.
  - cbn in Hfin. congruence.
  - cbn in Hkeep, Hfin.
    destruct (h e w) as [x w1 | ex w1 |] eqn:He.
    + destruct (run h (k x) w1) as [t o] eqn:Hrun. cbn in Hkeep, Hfin.
      apply (IH x w1).
      * rewrite Hrun. intros e' w0 w2 Hin. apply Hkeep. right. exact Hin.
      * apply (Hkeep e w w1); [left; reflexivity | exact Hw |].
        rewrite He. reflexivity.
      * rewrite Hrun. exact Hfin.
    + cbn in Hkeep, Hfin. injection Hfin as <-.
      apply (Hkeep e w w1); [left; reflexivity | exact Hw |].
      rewrite He. reflexivity.
    + discriminate.
Qed.

(** What the host leaves as it was at every effect a program performs,
    the run of the program leaves as it was. *)
Lemma run_frame {A V : Type} (obs : W -> V) (p : Prog A) (w : W) :
  (forall e w0 w1,
      In e (performed h p w) -> final (h e w0) = Some w1 -> obs w1 = obs w0) ->
  forall w', final (outcome h p w) = Some w' -> obs w' = obs w.
Proof.
  intros Hkeep.
  apply (run_invariant (fun w' => obs w' = obs w) p w); [| reflexivity].
  intros e w0 w1 Hin Hw0 Hfin. rewrite <- Hw0. exact (Hkeep e w0 w1 Hin Hfin).
Qed.

(** C1. For every call of the entry point with a valid registrar
    reference, that is one for which the manager is obtained and its
    lookup returns a typed registrar, the plugin's static registration
    method is invoked exactly once, and its argument is the typed
    registrar the lookup returned for that same reference. *)
Theorem registers_exactly_once
    (registrar : FlutterDesktopPluginRegistrarRef) (w w1 w2 : W)
    (this : PluginRegistrarManagerPtr) (typed : PluginRegistrarWindowsPtr) :
  h GetInstance w = Returns this w1 ->
  h (GetRegistrar this registrar) w1 = Returns typed w2 ->
  lookups (performed h (shim registrar) w) = [(this, registrar)] /\
  registrations (performed h (shim registrar) w) = [typed].
Proof.
  intros Hinst Hlook. unfold performed.
  rewrite run_shim, Hinst, Hlook. split; reflexivity.
Qed.

(** C2. For every call, the entry point does these steps, in this order,
    and no others: it obtains the singleton registrar manager, asks it
    for the typed registrar of the opaque reference, and invokes the
    plugin's static registration method with that typed registrar; the
    call ends as that invocation ends. *)
Theorem three_steps_in_order
    (registrar : FlutterDesktopPluginRegistrarRef) (w w1 w2 : W)
    (this : PluginRegistrarManagerPtr) (typed : PluginRegistrarWindowsPtr) :
  h GetInstance w = Returns this w1 ->
  h (GetRegistrar this registrar) w1 = Returns typed w2 ->
  performed h (shim registrar) w
  = [GetInstance; GetRegistrar this registrar; RegisterWithRegistrar typed] /\
  outcome h (shim registrar) w = h (RegisterWithRegistrar typed) w2.
Proof.
  intros Hinst Hlook. unfold performed, outcome.
  rewrite run_shim, Hinst, Hlook. split; reflexivity.
Qed.

(** C3. The entry point does nothing besides the single registration: in
    every call, what it performs is an initial part of the three calls
    (so every effect is a call to a collaborator and none is an
    allocation, a write or a deallocation of its own), there is at most
    one registration, and a call that returns hands back nothing. *)
Theorem no_other_action (registrar : FlutterDesktopPluginRegistrarRef) (w : W) :
  (exists this typed,
      performed h (shim registrar) w `prefix_of`
      [GetInstance; GetRegistrar this registrar; RegisterWithRegistrar typed]) /\
  forallb is_call (performed h (shim registrar) w) = true /\
  forallb (fun e => negb (touches_memory e)) (performed h (shim registrar) w)
  = true /\
  (length (registrations (performed h (shim registrar) w)) <= 1)%nat /\
  match outcome h (shim registrar) w with
  | Returns x _ => x = tt
  | _ => True
  end.
Proof.
  unfold performed, outcome. rewrite run_shim.
  destruct (h GetInstance w) as [this w1 | ex w1 |].
  - destruct (h (GetRegistrar this registrar) w1) as [typed w2 | ex w2 |].
    + split.
      { exists this, typed. reflexivity. }
      cbn. repeat split; [lia |].
      destruct (h (RegisterWithRegistrar typed) w2) as [[] w3 | |]; exact I || reflexivity.
    + split.
      { exists this, (registrar_at null). eexists [_]. reflexivity. }
      cbn. repeat split. lia.
    + split.
      { exists this, (registrar_at null). eexists [_]. reflexivity. }
      cbn. repeat split. lia.
  - split.
    { exists (manager_at null), (registrar_at null). eexists [_; _]. reflexivity. }
    cbn. repeat split. lia.
  - split.
    { exists (manager_at null), (registrar_at null). eexists [_; _]. reflexivity. }
    cbn. repeat split. lia.
Qed.

(** Every effect the shim performs is a call to a collaborator. *)
Lemma shim_only_calls (registrar : FlutterDesktopPluginRegistrarRef) (w : W) :
  forall e, In e (performed h (shim registrar) w) -> is_call e = true.
Proof.
  intros e. unfold performed. rewrite run_shim.
  destruct (h GetInstance w) as [this w1 | ex w1 |];
    [destruct (h (GetRegistrar this registrar) w1) as [typed w2 | ex w2 |] | |];
    cbn; intuition (subst; reflexivity).
Qed.

(** C5. In every call the shim neither creates, writes nor destroys the
    registrar handle it receives, and forwards it as it is: once the
    manager is obtained the shim makes one lookup, on that manager and
    with the very reference it was given; it makes no lookup with any
    other reference; it performs no allocation, write or deallocation;
    and whatever the collaborators leave as it was (the memory behind
    the handle, say) is as it was when the call ends. *)
Theorem handle_passed_through {V : Type} (obs : W -> V)
    (registrar : FlutterDesktopPluginRegistrarRef) (w : W) :
  (forall e w0 w1,
      is_call e = true -> final (h e w0) = Some w1 -> obs w1 = obs w0) ->
  (forall this w1,
      h GetInstance w = Returns this w1 ->
      lookups (performed h (shim registrar) w) = [(this, registrar)]) /\
  Forall (fun l => l.2 = registrar) (lookups (performed h (shim registrar) w)) /\
  forallb (fun e => negb (touches_memory e)) (performed h (shim registrar) w)
  = true /\
  match final (outcome h (shim registrar) w) with
  | Some w' => obs w' = obs w
  | None => True
  end.
Proof.
  intros Hkeep. split; [| split; [| split]].
  - intros this w1 Hinst. unfold performed. rewrite run_shim, Hinst.
    destruct (h (GetRegistrar this registrar) w1); reflexivity.
  - unfold performed. rewrite run_shim.
    destruct (h GetInstance w) as [this w1 | ex w1 |];
      [destruct (h (GetRegistrar this registrar) w1) as [typed w2 | ex w2 |] | |];
      cbn; repeat constructor.
  - apply forallb_forall. intros e Hin.
    apply shim_only_calls in Hin. destruct e; try discriminate; reflexivity.
  - destruct (final (outcome h (shim registrar) w)) as [w' |] eqn:Hfin; [| exact I].
    apply (run_frame obs (shim registrar) w); [| exact Hfin].
    intros e w0 w1 Hin. apply Hkeep. exact (shim_only_calls registrar w e Hin).
Qed.

(** C6, as amended. The entry point has no error path of its own, and
    passes on what its collaborators do. It raises nothing itself. It
    returns, with nothing in hand, exactly when its three calls return,
    each from the state the one before left. It leaves by an exception
    exactly when one of the three calls, reached in that order, leaves
    by that exception, and then in the state that call left: nothing is
    caught, checked or reported by the shim. *)
Theorem no_error_of_its_own
    (registrar : FlutterDesktopPluginRegistrarRef) (w : W) :
  forallb (fun e => negb (is_throw e)) (performed h (shim registrar) w) = true /\
  (forall x w3,
      outcome h (shim registrar) w = Returns x w3 <->
      exists this w1 typed w2,
        h GetInstance w = Returns this w1 /\
        h (GetRegistrar this registrar) w1 = Returns typed w2 /\
        h (RegisterWithRegistrar typed) w2 = Returns tt w3) /\
  (forall ex w',
      outcome h (shim registrar) w = Throws ex w' <->
      h GetInstance w = Throws ex w' \/
      (exists this w1,
          h GetInstance w = Returns this w1 /\
          h (GetRegistrar this registrar) w1 = Throws ex w') \/
      (exists this w1 typed w2,
          h GetInstance w = Returns this w1 /\
          h (GetRegistrar this registrar) w1 = Returns typed w2 /\
          h (RegisterWithRegistrar typed) w2 = Throws ex w')).
Proof.
  split; [| split].
  - apply forallb_forall. intros e Hin.
    apply shim_only_calls in Hin. destruct e; try discriminate; reflexivity.
  - intros [] w3. unfold outcome. rewrite run_shim.
    destruct (h GetInstance w) as [this w1 | ex w1 |] eqn:Hinst.
    + destruct (h (GetRegistrar this registrar) w1) as [typed w2 | ex w2 |]
        eqn:Hlook; cbn [snd].
      * split.
        -- intros Hreg. exists this, w1, typed, w2. auto.
        -- intros (this' & w1' & typed' & w2' & [= <- <-] & Hlook' & Hreg).
           rewrite Hlook in Hlook'. injection Hlook' as <- <-. exact Hreg.
      * split; [discriminate |].
        intros (this' & w1' & typed' & w2' & [= <- <-] & Hlook' & _).
        rewrite Hlook in Hlook'. discriminate.
      * split; [discriminate |].
        intros (this' & w1' & typed' & w2' & [= <- <-] & Hlook' & _).
        rewrite Hlook in Hlook'. discriminate.
    + cbn [snd]. split; [discriminate |]. intros (? & ? & ? & ? & [=] & _).
    + cbn [snd]. split; [discriminate |]. intros (? & ? & ? & ? & [=] & _).
  - intros ex w'. unfold outcome. rewrite run_shim.
    destruct (h GetInstance w) as [this w1 | ex1 w1 |] eqn:Hinst.
    + destruct (h (GetRegistrar this registrar) w1) as [typed w2 | ex2 w2 |]
        eqn:Hlook; cbn [snd].
      * split.
        -- intros Hreg. right. right. exists this, w1, typed, w2. auto.
        -- intros [[=] | [(this' & w1' & [= <- <-] & Hlook')
                         | (this' & w1' & typed' & w2' & [= <- <-] & Hlook' & Hreg)]].
           ++ rewrite Hlook in Hlook'. discriminate.
           ++ rewrite Hlook in Hlook'. injection Hlook' as <- <-. exact Hreg.
      * split.
        -- intros [= <- <-]. right. left. exists this, w1. auto.
        -- intros [[=] | [(this' & w1' & [= <- <-] & Hlook')
                         | (this' & w1' & typed' & w2' & [= <- <-] & Hlook' & _)]].
           ++ rewrite Hlook in Hlook'. injection Hlook' as <- <-. reflexivity.
           ++ rewrite Hlook in Hlook'. discriminate.
      * split; [discriminate |].
        intros [[=] | [(this' & w1' & [= <- <-] & Hlook')
                      | (this' & w1' & typed' & w2' & [= <- <-] & Hlook' & _)]];
          rewrite Hlook in Hlook'; discriminate.
    + cbn [snd]. split.
      * intros [= <- <-]. left. reflexivity.
      * intros [[= <- <-] | [(? & ? & [=] & _) | (? & ? & ? & ? & [=] & _)]].
        reflexivity.
    + cbn [snd]. split; [discriminate |].
      intros [[=] | [(? & ? & [=] & _) | (? & ? & ? & ? & [=] & _)]].
Qed.

(** C7. Every call of the entry point comes to an end: when no
    collaborator keeps its caller waiting, the call finishes, and it has
    then performed at most three effects, one after the other. *)
Theorem call_terminates
    (registrar : FlutterDesktopPluginRegistrarRef) (w : W) :
  (forall e w0, is_call e = true -> h e w0 <> Blocks) ->
  is_Some (final (outcome h (shim registrar) w)) /\
  (length (performed h (shim registrar) w) <= 3)%nat.
Proof.
  intros Hhost. unfold performed, outcome. rewrite run_shim.
  pose proof (Hhost GetInstance w eq_refl) as Hinst.
  destruct (h GetInstance w) as [this w1 | ex w1 |]; [| cbn; eauto with lia | done].
  pose proof (Hhost (GetRegistrar this registrar) w1 eq_refl) as Hlook.
  destruct (h (GetRegistrar this registrar) w1) as [typed w2 | ex w2 |];
    [| cbn; eauto with lia | done].
  pose proof (Hhost (RegisterWithRegistrar typed) w2 eq_refl) as Hreg.
  cbn. destruct (h (RegisterWithRegistrar typed) w2) as [x w3 | ex w3 |];
    [cbn; eauto with lia .. | done].
Qed.

(** C9. The entry point checks its argument neither for null nor for
    anything else. Once the manager is obtained, a call with the null
    reference makes the lookup with it, registers what the lookup
    returns if it returns, and ends as the lookup or the registration
    ends; and so does a call with any other reference: what the call
    does depends on the reference only through what the host answers. *)
Theorem null_is_forwarded (registrar : FlutterDesktopPluginRegistrarRef)
    (w w1 : W) (this : PluginRegistrarManagerPtr) :
  h GetInstance w = Returns this w1 ->
  performed h (shim null) w
  = GetInstance :: GetRegistrar this null ::
    match h (GetRegistrar this null) w1 with
    | Returns typed _ => [RegisterWithRegistrar typed]
    | _ => []
    end /\
  outcome h (shim null) w
  = match h (GetRegistrar this null) w1 with
    | Returns typed w2 => h (RegisterWithRegistrar typed) w2
    | Throws ex w2 => Throws ex w2
    | Blocks => Blocks
    end /\
  performed h (shim registrar) w
  = GetInstance :: GetRegistrar this registrar ::
    match h (GetRegistrar this registrar) w1 with
    | Returns typed _ => [RegisterWithRegistrar typed]
    | _ => []
    end /\
  outcome h (shim registrar) w
  = match h (GetRegistrar this registrar) w1 with
    | Returns typed w2 => h (RegisterWithRegistrar typed) w2
    | Throws ex w2 => Throws ex w2
    | Blocks => Blocks
    end.
Proof.
  intros Hinst. unfold performed, outcome. rewrite !run_shim, Hinst.
  destruct (h (GetRegistrar this null) w1),
    (h (GetRegistrar this registrar) w1); repeat split; reflexivity.
Qed.

(** The registrations and the lookups of two runs in a row. *)
Lemma registrations_app (t t' : list Effect) :
  registrations (t ++ t') = registrations t ++ registrations t'.
Proof. apply omap_app. Qed.

Lemma lookups_app (t t' : list Effect) :
  lookups (t ++ t') = lookups t ++ lookups t'.
Proof. apply omap_app. Qed.

(** C10. The entry point does not deduplicate. When the engine calls it
    once for each reference of a list, each call returning, there are as
    many registrations as calls, and the lookups were given the
    references of the list, one by one, repeated ones included. *)
Theorem one_registration_per_call
    (refs : list FlutterDesktopPluginRegistrarRef) :
  forall w w',
    snd (run_calls h refs w) = Returns tt w' ->
    length (registrations (fst (run_calls h refs w))) = length refs /\
    (lookups (fst (run_calls h refs w))).*2 = refs.
Proof.
  induction refs as [| registrar rest IH]; intros w w' Hret.
  - split; reflexivity.
  - cbn [run_calls] in *. rewrite run_shim in *.
    destruct (h GetInstance w) as [this w1 | ex w1 |]; [| discriminate ..].
    destruct (h (GetRegistrar this registrar) w1) as [typed w2 | ex w2 |];
      [| discriminate ..].
    destruct (h (RegisterWithRegistrar typed) w2) as [[] w3 | ex w3 |];
      [| discriminate ..].
    destruct (run_calls h rest w3) as [t' o] eqn:Hrest. cbn [fst snd] in *.
    specialize (IH w3 w'). rewrite Hrest in IH. destruct (IH Hret) as [IHn IHl].
    cbn [fst snd] in IHn, IHl.
    rewrite registrations_app, lookups_app, length_app, fmap_app.
    cbn. rewrite IHn, IHl. split; reflexivity.
Qed.

End AnyHost.

(** ** The collaborators of the reference host *)

Section ReferenceHost.

Import Reference.

Local Abbreviation shim := FlutterMcpServerPluginCApiRegisterWithRegistrar.

(** [GetInstance] always returns, and leaves its result in the slot. *)
Lemma get_instance_returns (w : World) :
  exists this w1,
    host GetInstance w = Returns this w1 /\ instance w1 = Some this.
Proof.
  destruct w as [[m |] r b a hp]; cbn; unfold get_instance; cbn; eauto.
Qed.

(** Once the slot is filled, [GetInstance] returns what is in it and
    changes nothing. *)
Lemma get_instance_filled (w : World) (this : PluginRegistrarManagerPtr) :
  instance w = Some this -> host GetInstance w = Returns this w.
Proof. intros Hw. cbn. unfold get_instance. rewrite Hw. reflexivity. Qed.

(** No effect empties or replaces a filled slot. *)
Lemma host_keeps_instance (e : Effect) (w w' : World)
    (this : PluginRegistrarManagerPtr) :
  instance w = Some this -> final (host e w) = Some w' -> instance w' = Some this.
Proof.
  intros Hw. destruct e; cbn;
    unfold get_instance, get_registrar, register_with_registrar, new, store,
      delete_;
    repeat case_match; cbn; intros [= <-]; cbn; congruence.
Qed.

(** [GetInstance] returns the same instance on every call: what it
    returned once, it returns after any program has run since. *)
Lemma get_instance_same {A : Type} (p : Prog A) (w w1 w' : World)
    (this : PluginRegistrarManagerPtr) :
  host GetInstance w = Returns this w1 ->
  final (outcome host p w1) = Some w' ->
  host GetInstance w' = Returns this w'.
Proof.
  intros Hget Hfin. apply get_instance_filled.
  apply (run_invariant host (fun w => instance w = Some this) p w1);
    [| | exact Hfin].
  - intros e w0 w2 _. apply host_keeps_instance.
  - destruct (get_instance_returns w) as (m & w2 & Hget' & Hslot).
    rewrite Hget in Hget'. injection Hget' as -> ->. exact Hslot.
Qed.

(** The collaborators never keep their caller waiting. *)
Lemma host_never_blocks (e : Effect) (w : World) :
  is_call e = true -> host e w <> Blocks.
Proof.
  destruct e; try discriminate; intros _; cbn;
    unfold get_instance, get_registrar, register_with_registrar;
    repeat case_match; discriminate.
Qed.

(** The collaborators leave the memory of the process as it is. *)
Lemma calls_keep_heap (e : Effect) (w w' : World) :
  is_call e = true -> final (host e w) = Some w' -> heap w' = heap w.
Proof.
  destruct e; try discriminate; intros _; cbn;
    unfold get_instance, get_registrar, register_with_registrar;
    repeat case_match; cbn; intros [= <-]; reflexivity.
Qed.

(** With the slot filled, every lookup of a sequence of calls is made on
    the instance in the slot. *)
Lemma lookups_on_instance (refs : list FlutterDesktopPluginRegistrarRef) :
  forall (w : World) (this : PluginRegistrarManagerPtr),
    instance w = Some this ->
    Forall (fun l => l.1 = this) (lookups (fst (run_calls host refs w))).
Proof.
  induction refs as [| registrar rest IH]; intros w this Hw.
  - constructor.
  - cbn [run_calls]. rewrite run_shim, (get_instance_filled w this Hw).
    destruct (host (GetRegistrar this registrar) w) as [typed w2 | ex w2 |]
      eqn:Hlook; [| repeat constructor ..].
    assert (Hw2 : instance w2 = Some this).
    { apply (host_keeps_instance (GetRegistrar this registrar) w); [exact Hw |].
      rewrite Hlook. reflexivity. }
    change (host (RegisterWithRegistrar typed) w2)
      with (register_with_registrar typed w2).
    unfold register_with_registrar.
    destruct (run_calls host rest _) as [t' o] eqn:Hrest.
    cbn [fst]. rewrite lookups_app. apply Forall_app. split.
    + repeat constructor.
    + match type of Hrest with run_calls _ _ ?w3 = _ =>
        specialize (IH w3 this Hw2) end.
      rewrite Hrest in IH. exact IH.
Qed.






End ReferenceHost.

(** ** The theorems at the start-up of a process *)

Section AtStartup.

Import Reference.

Local Abbreviation shim := FlutterMcpServerPluginCApiRegisterWithRegistrar.

(** The first call of a process, with the handle [7]: the manager is
    made at [100], the registry has the typed registrar at [50] for the
    handle, and the registration is invoked once, with that registrar. *)
Lemma registers_exactly_once_witness :
  lookups (performed host (shim 7) startup) = [(manager_at 100, 7)] /\
  registrations (performed host (shim 7) startup) = [registrar_at 50].
Proof.
  apply (registers_exactly_once host 7 startup started started
           (manager_at 100) (registrar_at 50));
    reflexivity.
Defined.

Lemma three_steps_in_order_witness :
  performed host (shim 7) startup
  = [GetInstance; GetRegistrar (manager_at 100) 7;
     RegisterWithRegistrar (registrar_at 50)] /\
  outcome host (shim 7) startup
  = host (RegisterWithRegistrar (registrar_at 50)) started.
Proof.
  apply (three_steps_in_order host 7 startup started started
           (manager_at 100) (registrar_at 50));
    reflexivity.
Defined.

(** The handle [7] reaches the lookup, and the memory of the process,
    the word behind the handle with it, is after the call what it was
    before. *)
Lemma handle_passed_through_witness :
  lookups (performed host (shim 7) startup) = [(manager_at 100, 7)] /\
  Forall (fun l => l.2 = 7%N) (lookups (performed host (shim 7) startup)) /\
  forallb (fun e => negb (touches_memory e)) (performed host (shim 7) startup)
  = true /\
  match final (outcome host (shim 7) startup) with
  | Some w' => heap w' = heap startup
  | None => True
  end.
Proof.
  destruct (handle_passed_through host heap 7 startup calls_keep_heap)
    as (Hforward & Hrest).
  split; [| exact Hrest].
  apply (Hforward (manager_at 100) started). reflexivity.
Defined.

(** The claim as it was worded, "for every input it returns normally",
    fails: the host faults on the null reference and the call ends by
    that fault. *)
Lemma returns_for_every_input_fails :
  outcome host (shim null) startup = Throws HostFault started /\
  ~ (forall (W : Type) (h : Host W)
            (registrar : FlutterDesktopPluginRegistrarRef) (w : W),
        exists w', outcome h (shim registrar) w = Returns tt w').
Proof.
  split; [reflexivity |].
  intros Hall. destruct (Hall World host null startup) as [w' Hw'].
  discriminate Hw'.
Qed.

(** The call with the handle [7] returns, since its three calls do; the
    call with the null reference ends by the fault of the lookup. *)
Lemma no_error_of_its_own_witness :
  outcome host (shim 7) startup
  = Returns tt
      (mkWorld (Some (manager_at 100)) engine_registry 101 [registrar_at 50]
               {[ 7 := 42%Z ]}) /\
  outcome host (shim null) startup = Throws HostFault started.
Proof.
  split.
  - apply (proj1 (proj2 (no_error_of_its_own host 7 startup))).
    exists (manager_at 100), started, (registrar_at 50), started.
    repeat split.
  - apply (proj2 (proj2 (no_error_of_its_own host null startup))).
    right. left. exists (manager_at 100), started. split; reflexivity.
Defined.

Lemma call_terminates_witness :
  is_Some (final (outcome host (shim 7) startup)) /\
  (length (performed host (shim 7%N) startup) <= 3)%nat.
Proof.
  apply (call_terminates host 7 startup host_never_blocks).
Defined.

(** The reference host faults on the null reference; the shim has made
    the lookup with it all the same, as it does with the handle [7]. *)
Lemma null_is_forwarded_witness :
  performed host (shim null) startup
  = [GetInstance; GetRegistrar (manager_at 100) null] /\
  outcome host (shim null) startup = Throws HostFault started /\
  performed host (shim 7) startup
  = [GetInstance; GetRegistrar (manager_at 100) 7;
     RegisterWithRegistrar (registrar_at 50)] /\
  outcome host (shim 7) startup
  = Returns tt
      (mkWorld (Some (manager_at 100)) engine_registry 101 [registrar_at 50]
               {[ 7 := 42%Z ]}).
Proof.
  apply (null_is_forwarded host 7 startup started (manager_at 100)).
  reflexivity.
Defined.

(** Three calls, two of them with the same handle: three registrations. *)
Lemma one_registration_per_call_witness :
  length (registrations (fst (run_calls host [7; 7; 9] startup))) = 3%nat /\
  (lookups (fst (run_calls host [7; 7; 9] startup))).*2 = [7; 7; 9].
Proof.
  apply (one_registration_per_call host [7; 7; 9] startup
           (mkWorld (Some (manager_at 100)) engine_registry 101
                    [registrar_at 51; registrar_at 50; registrar_at 50]
                    {[ 7 := 42%Z ]}));
    vm_compute; reflexivity.
Defined.


End AtStartup.

(** ** More on the shim against any host *)

Section AnyHostMore.

Context {W : Type} (h : Host W).

Local Abbreviation shim := FlutterMcpServerPluginCApiRegisterWithRegistrar.

(** X1. A call makes the lookup exactly when [GetInstance] returned, and
    invokes the registration exactly when the lookup returned as well:
    the plugin is never registered after a failed step, and never left
    unregistered after two steps that went through. *)
Theorem registered_iff_lookup_returned
    (registrar : FlutterDesktopPluginRegistrarRef) (w : W) :
  (lookups (performed h (shim registrar) w) <> [] <->
   exists this w1, h GetInstance w = Returns this w1) /\
  (registrations (performed h (shim registrar) w) <> [] <->
   exists this w1 typed w2,
     h GetInstance w = Returns this w1 /\
     h (GetRegistrar this registrar) w1 = Returns typed w2).
Proof.
  unfold performed. rewrite run_shim.
  destruct (h GetInstance w) as [this w1 | ex w1 |] eqn:Hinst;
    [destruct (h (GetRegistrar this registrar) w1) as [typed w2 | ex w2 |]
       eqn:Hlook | |];
    cbn; (split; split; intros H);
    first
      [ discriminate
      | exfalso; apply H; reflexivity
      | solve [eauto 8]
      | solve [destruct H as (? & ? & [=])]
      | solve [destruct H as (? & ? & ? & ? & [=] & _)]
      | destruct H as (this' & w1' & typed' & w2' & [= <- <-] & Hlook');
        rewrite Hlook in Hlook'; discriminate ].
Qed.

(** X2. The shim adds no change of state of its own, over any number of
    calls: a property of the host's state that each collaborator call
    keeps, and that holds when the engine starts calling, holds in the
    state the sequence of calls leaves, however the sequence ends. *)
Theorem calls_keep_invariant (P : W -> Prop)
    (refs : list FlutterDesktopPluginRegistrarRef) :
  (forall e w0 w1,
      is_call e = true -> P w0 -> final (h e w0) = Some w1 -> P w1) ->
  forall w w',
    P w -> final (snd (run_calls h refs w)) = Some w' -> P w'.
Proof.
  intros Hkeep.
  assert (Hone : forall registrar w w',
             P w -> final (outcome h (shim registrar) w) = Some w' -> P w').
  { intros registrar w w' Hw.
    apply (run_invariant h P (shim registrar) w); [| exact Hw].
    intros e w0 w1 Hin. apply Hkeep.
    exact (shim_only_calls h registrar w e Hin). }
  induction refs as [| registrar rest IH]; intros w w' Hw.
  - cbn. intros [= <-]. exact Hw.
  - cbn [run_calls]. specialize (Hone registrar w). unfold outcome in Hone.
    destruct (run h (shim registrar) w) as [t [[] w1 | ex w1 |]].
    + destruct (run_calls h rest w1) as [t' o] eqn:Hrest. cbn [snd] in *.
      intros Hfin. apply (IH w1 w'); [apply Hone; [exact Hw | reflexivity] |].
      rewrite Hrest. exact Hfin.
    + cbn in *. intros Hfin. apply Hone; assumption.
    + discriminate.
Qed.

(** X3. The shim keeps no manager from one call to the next: in a
    sequence of calls that all return, the effects come in groups of
    three, and the first of each group is a [GetInstance] of its own. *)
Theorem manager_asked_in_every_call
    (refs : list FlutterDesktopPluginRegistrarRef) :
  forall w w',
    snd (run_calls h refs w) = Returns tt w' ->
    (fun e => bool_decide (e = GetInstance)) <$> fst (run_calls h refs w)
    = mjoin (replicate (length refs) [true; false; false]).
Proof.
  induction refs as [| registrar rest IH]; intros w w' Hret.
  - reflexivity.
  - cbn [run_calls] in *. rewrite run_shim in *.
    destruct (h GetInstance w) as [this w1 | ex w1 |]; [| discriminate ..].
    destruct (h (GetRegistrar this registrar) w1) as [typed w2 | ex w2 |];
      [| discriminate ..].
    destruct (h (RegisterWithRegistrar typed) w2) as [[] w3 | ex w3 |];
      [| discriminate ..].
    destruct (run_calls h rest w3) as [t' o] eqn:Hrest. cbn [fst snd] in *.
    specialize (IH w3 w'). rewrite Hrest in IH. cbn [fst snd] in IH.
    cbn. rewrite (IH Hret). reflexivity.
Qed.

End AnyHostMore.

Section AtStartupMore.

Import Reference.

(** The word behind the handle [7] is still there after three calls. *)
Lemma calls_keep_invariant_witness :
  heap (mkWorld (Some (manager_at 100)) engine_registry 101
                [registrar_at 51; registrar_at 50; registrar_at 50]
                {[ 7 := 42%Z ]}) !! 7
  = Some 42%Z.
Proof.
  apply (calls_keep_invariant host (fun w => heap w !! 7 = Some 42%Z) [7; 7; 9])
    with (w := startup).
  - intros e w0 w1 Hcall Hw0 Hfin.
    rewrite (calls_keep_heap e w0 w1 Hcall Hfin). exact Hw0.
  - reflexivity.
  - vm_compute. reflexivity.
Defined.

Lemma manager_asked_in_every_call_witness :
  (fun e => bool_decide (e = GetInstance)) <$> fst (run_calls host [7; 7; 9] startup)
  = [true; false; false; true; false; false; true; false; false].
Proof.
  apply (manager_asked_in_every_call host [7; 7; 9] startup
           (mkWorld (Some (manager_at 100)) engine_registry 101
                    [registrar_at 51; registrar_at 50; registrar_at 50]
                    {[ 7 := 42%Z ]})).
  vm_compute. reflexivity.
Defined.

End AtStartupMore.
